(** * gin-favicon: the favicon set derived from one image and its routes

    A shallow embedding of [favicon.go].  The package decodes one or two
    source images, resizes them to a fixed set of sizes, encodes every size
    as PNG and registers one GET handler per asset on a [gin.RouterGroup],
    together with two generated documents ([site.webmanifest] and
    [browserconfig.xml]).

    Go strings are byte sequences and are modelled by [string] (a list of
    8-bit [ascii]); [[]byte] values are [list byte], with [nil] told apart
    from an empty slice only where the program tests for it
    ([Options.AppleTouchIcon]).  The router group is mutated through a
    pointer in Go; here every function takes the group and returns the
    updated group next to its [error] result ([None] is Go's [nil]). *)

From Stdlib Require Import String Ascii Strings.Byte List ZArith Bool Arith Lia.
Import ListNotations.
Local Open Scope list_scope.
Local Open Scope string_scope.

(** ** Strings and bytes *)

Definition bytes := list byte.

(** [[]byte(s)] *)
Definition bytes_of_string (s : string) : bytes := list_byte_of_string s.

(** The double quote and the line feed, by their codes. *)
Definition dquote : string := String "034"%char EmptyString.
Definition LF : string := String "010"%char EmptyString.

(** A string between double quotes: the Go literal ["s"] inside a raw
    string, or a JSON object key. *)
Definition quoted (s : string) : string := dquote ++ s ++ dquote.

(** [strings.HasSuffix]:
    [len(s) >= len(suffix) && s[len(s)-len(suffix):] == suffix]. *)
Definition HasSuffix (s suffix : string) : bool :=
  (String.length suffix <=? String.length s)%nat &&
  String.eqb
    (substring (String.length s - String.length suffix) (String.length suffix) s)
    suffix.

(** The test of a string against the empty string. *)
Definition is_empty (s : string) : bool :=
  match s with EmptyString => true | String _ _ => false end.

(** ** The collaborators *)

(** [imaging.Format] and [imaging.ResampleFilter]: the constants of
    github.com/disintegration/imaging. *)
Inductive Format : Set := JPEG | PNG | GIF | TIFF | BMP.

Inductive ResampleFilter : Set :=
| NearestNeighbor | Box | Linear | Hermite | MitchellNetravali | CatmullRom
| BSpline | Gaussian | Bartlett | Lanczos | Hann | Hamming | Blackman
| Welch | Cosine.

(** The image library as the package uses it.  [Decode] reads the whole
    byte slice through [bytes.NewReader]; [Encode] writes into a fresh
    [bytes.Buffer], whose content is the result when no error is
    reported.  [error] is Go's error interface. *)
Class Imaging : Type := {
  Image : Type;
  error : Type;
  Decode : bytes -> error + Image;
  Resize : Image -> Z -> Z -> ResampleFilter -> Image;
  Encode : Image -> Format -> error + bytes
}.

(** The string encoder of encoding/json (quotes, escapes), used by
    [json.Marshal] for every string value. *)
Class JSONString : Type := {
  appendString : string -> string
}.

(** ** The router group *)

(** What a handler writes with [gctx.Data(code, contentType, data)]. *)
Record Response : Type := Data {
  code : Z;
  contentType : string;
  data : bytes
}.

(** One registration: method, path relative to the group, handler.  The
    handlers of this package are closures over immutable bytes that answer
    every request with the same [Data] call, so a handler is modelled by
    the response it writes. *)
Record Route : Type := mkRoute {
  method : string;
  relativePath : string;
  handler : Response
}.

(** [gin.RouterGroup]: its base path and the registrations made through
    it, oldest first. *)
Record RouterGroup : Type := mkRouterGroup {
  BasePath : string;
  routes : list Route
}.

Definition StatusOK : Z := 200.

(** [r.GET(relativePath, handler)] *)
Definition GET (r : RouterGroup) (path : string) (h : Response) : RouterGroup :=
  {| BasePath := BasePath r;
     routes := (routes r ++ [mkRoute "GET" path h])%list |}.

(** The registrations present in [r'] that were not yet in [r]. *)
Definition registered (r r' : RouterGroup) : list Route :=
  skipn (length (routes r)) (routes r').

(** The response served for a GET of [path] by a list of registrations. *)
Fixpoint serve (path : string) (l : list Route) : option Response :=
  match l with
  | [] => None
  | rt :: l' =>
      if (String.eqb (method rt) "GET" && String.eqb (relativePath rt) path)%bool
      then Some (handler rt)
      else serve path l'
  end.

(** ** Options *)

Module Options.
Record t : Type := mk {
  Name : string;
  ShortName : string;
  Display : string;
  StartURL : string;
  ThemeColor : string;
  BackgroundColor : string;
  TileColor : string;
  Favicon : bytes;
  (** [None] is the nil slice, [Some []] a non-nil empty one. *)
  AppleTouchIcon : option bytes
}.

(** The same options with another [AppleTouchIcon]. *)
Definition withAppleTouchIcon (o : t) (icon : option bytes) : t :=
  mk (Name o) (ShortName o) (Display o) (StartURL o) (ThemeColor o)
     (BackgroundColor o) (TileColor o) (Favicon o) icon.

(** The same options with other colours for the manifest. *)
Definition withColors (o : t) (theme background : string) : t :=
  mk (Name o) (ShortName o) (Display o) (StartURL o) theme background
     (TileColor o) (Favicon o) (AppleTouchIcon o).
End Options.

(** ** The manifest and its JSON form *)

Record webmanifestIcon : Type := mkIcon {
  Src : string;
  Sizes : string;
  Type_ : string
}.

Module webmanifest.
Record t : Type := mk {
  Name : string;
  ShortName : string;
  Display : string;
  StartURL : string;
  BackgroundColor : string;
  ThemeColor : string;
  Icons : list webmanifestIcon
}.
End webmanifest.

(** JSON values as far as the manifest needs them. *)
#[warnings="-register-all"]
Inductive json : Type :=
| JString (s : string)
| JArray (xs : list json)
| JObject (fields : list (string * json)).

(** The value of a field of an object, first occurrence. *)
Fixpoint field (key : string) (fs : list (string * json)) : option json :=
  match fs with
  | [] => None
  | (k, v) :: fs' => if String.eqb k key then Some v else field key fs'
  end.

Definition get (key : string) (j : json) : option json :=
  match j with
  | JObject fs => field key fs
  | _ => None
  end.

(** The struct tags of [webmanifestIcon]. *)
Definition webmanifestIcon_json (i : webmanifestIcon) : json :=
  JObject [("src", JString (Src i));
           ("sizes", JString (Sizes i));
           ("type", JString (Type_ i))].

(** The struct tags of [webmanifest], in declaration order;
    [start_url] carries [omitempty]. *)
Definition webmanifest_json (m : webmanifest.t) : json :=
  JObject
    ([("name", JString (webmanifest.Name m));
      ("short_name", JString (webmanifest.ShortName m));
      ("display", JString (webmanifest.Display m))]
     ++ (if is_empty (webmanifest.StartURL m) then []
         else [("start_url", JString (webmanifest.StartURL m))])
     ++ [("background_color", JString (webmanifest.BackgroundColor m));
         ("theme_color", JString (webmanifest.ThemeColor m));
         ("icons", JArray (map webmanifestIcon_json (webmanifest.Icons m)))])%list.

(** ** The package *)

Section Favicon.
Context {IM : Imaging} {JS : JSONString}.

(** What a function of the package leaves behind: the router group after
    its registrations, and its [error] result. *)
Definition result : Type := RouterGroup * option error.

(** [if err != nil { return err }] after a call that works on the group. *)
Definition orReturn (c : result) (k : RouterGroup -> result) : result :=
  match c with
  | (r', None) => k r'
  | (r', Some err) => (r', Some err)
  end.

Notation "'do' r' <- c ; k" := (orReturn c (fun r' => k))
  (at level 10, r' name, c at level 100, k at level 200).

(** The compact text [json.Marshal] writes for a value: members and
    elements separated by commas, no white space. *)
Fixpoint render (j : json) : string :=
  match j with
  | JString s => appendString s
  | JArray xs =>
      "[" ++ (fix elements (l : list json) : string :=
                match l with
                | [] => EmptyString
                | x :: l' =>
                    render x ++
                    match l' with [] => EmptyString | _ :: _ => "," ++ elements l' end
                end) xs ++ "]"
  | JObject fs =>
      "{" ++ (fix members (l : list (string * json)) : string :=
                match l with
                | [] => EmptyString
                | (k, v) :: l' =>
                    quoted k ++ ":" ++ render v ++
                    match l' with [] => EmptyString | _ :: _ => "," ++ members l' end
                end) fs ++ "}"
  end.

(** [json.Marshal(manifest)]: a struct of strings and of a slice of such
    structs is always serialised, the error result is [nil]. *)
Definition json_Marshal (m : webmanifest.t) : error + bytes :=
  inr (bytes_of_string (render (webmanifest_json m))).

Record addIconOptions : Type := mkAddIconOptions {
  name : string;
  img : Image;
  size : Z;
  format : Format;
  mime : string
}.

Definition addIcon (r : RouterGroup) (o : addIconOptions) : result :=
  let ico := Resize (img o) (size o) (size o) Lanczos in
  match Encode ico (format o) with
  | inl err => (r, Some err)
  | inr data =>
      (GET r ("/" ++ name o) (Data StatusOK (mime o) data), None)
  end.

Definition addAppleTouchIcon (r : RouterGroup) (img : Image) : result :=
  addIcon r {| name := "apple-touch-icon.png"; img := img; size := 180;
               format := PNG; mime := "image/png" |}.

Definition addFavicon (r : RouterGroup) (img : Image) : result :=
  do r <- addIcon r {| name := "favicon.png"; img := img; size := 48;
                       format := PNG; mime := "image/png" |};
  do r <- addIcon r {| name := "favicon-32x32.png"; img := img; size := 32;
                       format := PNG; mime := "image/png" |};
  addIcon r {| name := "favicon-16x16.png"; img := img; size := 16;
               format := PNG; mime := "image/png" |}.

(** The base path with a separator appended unless it ends with one. *)
Definition manifestPath (r : RouterGroup) : string :=
  let path := BasePath r in
  if negb (HasSuffix path "/") then path ++ "/" else path.

(** The manifest value at the point where it is marshalled: the struct
    literal (fields left out of it hold the empty string), then the three
    assignments of defaults. *)
Definition manifestOf (r : RouterGroup) (o : Options.t) : webmanifest.t :=
  let path := manifestPath r in
  let manifest :=
    {| webmanifest.Name := Options.Name o;
       webmanifest.ShortName := Options.ShortName o;
       webmanifest.Display := Options.Display o;
       webmanifest.StartURL := Options.StartURL o;
       webmanifest.BackgroundColor := EmptyString;
       webmanifest.ThemeColor := EmptyString;
       webmanifest.Icons :=
         [ {| Src := path ++ "android-chrome-192x192.png";
              Sizes := "192x192"; Type_ := "image/png" |};
           {| Src := path ++ "/android-chrome-512x512.png";
              Sizes := "512x512"; Type_ := "image/png" |} ] |} in
  let manifest :=
    if is_empty (webmanifest.Display manifest)
    then webmanifest.mk (webmanifest.Name manifest) (webmanifest.ShortName manifest)
           "standalone" (webmanifest.StartURL manifest)
           (webmanifest.BackgroundColor manifest) (webmanifest.ThemeColor manifest)
           (webmanifest.Icons manifest)
    else manifest in
  let manifest :=
    if is_empty (webmanifest.ThemeColor manifest)
    then webmanifest.mk (webmanifest.Name manifest) (webmanifest.ShortName manifest)
           (webmanifest.Display manifest) (webmanifest.StartURL manifest)
           (webmanifest.BackgroundColor manifest) "#ffffff"
           (webmanifest.Icons manifest)
    else manifest in
  if is_empty (webmanifest.BackgroundColor manifest)
  then webmanifest.mk (webmanifest.Name manifest) (webmanifest.ShortName manifest)
         (webmanifest.Display manifest) (webmanifest.StartURL manifest)
         "#ffffff" (webmanifest.ThemeColor manifest)
         (webmanifest.Icons manifest)
  else manifest.

Definition addWebmanifest (r : RouterGroup) (img : Image) (o : Options.t) : result :=
  let manifest := manifestOf r o in
  match json_Marshal manifest with
  | inl err => (r, Some err)
  | inr manifestJSON =>
      let r := GET r "/site.webmanifest"
                 (Data StatusOK "application/manifest+json" manifestJSON) in
      do r <- addIcon r {| name := "android-chrome-192x192.png"; img := img;
                           size := 192; format := PNG; mime := "image/png" |};
      addIcon r {| name := "android-chrome-512x512.png"; img := img;
                   size := 512; format := PNG; mime := "image/png" |}
  end.

(** The raw string literal of [addBrowserConfig], before and after the
    tile colour. *)
Definition browserConfigHead : string :=
  "<?xml version=" ++ quoted "1.0" ++ " encoding=" ++ quoted "utf-8" ++ "?>" ++ LF ++
  "<browserconfig>" ++ LF ++
  "    <msapplication>" ++ LF ++
  "        <tile>" ++ LF ++
  "            <square150x150logo src=" ++ quoted "/mstile-150x150.png" ++ "/>" ++ LF ++
  "            <TileColor>".

Definition browserConfigTail : string :=
  "</TileColor>" ++ LF ++
  "        </tile>" ++ LF ++
  "    </msapplication>" ++ LF ++
  "</browserconfig>".

Definition addBrowserConfig (r : RouterGroup) (img : Image) (tileColor : string) : result :=
  let tileColor := if is_empty tileColor then "#da532c" else tileColor in
  let browserConfig :=
    bytes_of_string (browserConfigHead ++ tileColor ++ browserConfigTail) in
  let r := GET r "/browserconfig.xml" (Data StatusOK "application/xml" browserConfig) in
  addIcon r {| name := "mstile-150x150.png"; img := img; size := 150;
               format := PNG; mime := "image/png" |}.

(** [Add] generates the favicon formats and adds them to the router
    group. *)
Definition Add (r : RouterGroup) (o : Options.t) : result :=
  match Decode (Options.Favicon o) with
  | inl err => (r, Some err)
  | inr faviconImg =>
      match
        match Options.AppleTouchIcon o with
        | None => inr faviconImg
        | Some b => Decode b
        end
      with
      | inl err => (r, Some err)
      | inr appleTouchIconImg =>
          do r <- addAppleTouchIcon r appleTouchIconImg;
          do r <- addFavicon r faviconImg;
          do r <- addWebmanifest r faviconImg o;
          addBrowserConfig r faviconImg (Options.TileColor o)
      end
  end.

(** ** The run of [Add] as a sequence of steps

    [Add] registers as it goes and returns at the first error.  Once both
    sources are decoded, its run is a fixed sequence of nine steps, each of
    them an icon to resize, encode and register, or a document to
    register.  [steps] lists them in program order; [collect] keeps the
    routes up to the first failing step. *)

Definition iconStep (i : Image) (n : string) (sz : Z) : error + Route :=
  match Encode (Resize i sz sz Lanczos) PNG with
  | inl err => inl err
  | inr data => inr (mkRoute "GET" ("/" ++ n) (Data StatusOK "image/png" data))
  end.

Definition tileColorOf (o : Options.t) : string :=
  if is_empty (Options.TileColor o) then "#da532c" else Options.TileColor o.

Definition manifestRoute (r : RouterGroup) (o : Options.t) : Route :=
  mkRoute "GET" "/site.webmanifest"
    (Data StatusOK "application/manifest+json"
       (bytes_of_string (render (webmanifest_json (manifestOf r o))))).

Definition browserConfigRoute (o : Options.t) : Route :=
  mkRoute "GET" "/browserconfig.xml"
    (Data StatusOK "application/xml"
       (bytes_of_string (browserConfigHead ++ tileColorOf o ++ browserConfigTail))).

Definition steps (r : RouterGroup) (o : Options.t)
    (faviconImg appleTouchIconImg : Image) : list (error + Route) :=
  [ iconStep appleTouchIconImg "apple-touch-icon.png" 180;
    iconStep faviconImg "favicon.png" 48;
    iconStep faviconImg "favicon-32x32.png" 32;
    iconStep faviconImg "favicon-16x16.png" 16;
    inr (manifestRoute r o);
    iconStep faviconImg "android-chrome-192x192.png" 192;
    iconStep faviconImg "android-chrome-512x512.png" 512;
    inr (browserConfigRoute o);
    iconStep faviconImg "mstile-150x150.png" 150 ].

Fixpoint collect (l : list (error + Route)) : list Route * option error :=
  match l with
  | [] => ([], None)
  | inl err :: _ => ([], Some err)
  | inr rt :: l' => let (rs, res) := collect l' in (rt :: rs, res)
  end.

(** The group [r] with the routes [l] registered after its own. *)
Definition extend (r : RouterGroup) (l : list Route) : RouterGroup :=
  {| BasePath := BasePath r; routes := (routes r ++ l)%list |}.

(** The raster the touch icon is made from. *)
Definition appleTouchIconSource (o : Options.t) (faviconImg : Image) : error + Image :=
  match Options.AppleTouchIcon o with
  | None => inr faviconImg
  | Some b => Decode b
  end.

End Favicon.

(** ** The descriptor catalog of the specification

    One entry per derived icon: the path segment, the source raster and
    the size in pixels of the square asset.  Every entry is a PNG served
    as [image/png]. *)

Inductive Source : Set := primary | alternate.

Record Descriptor : Type := mkDescriptor {
  asset : string;
  source : Source;
  pixels : Z
}.

Definition catalog : list Descriptor :=
  [ mkDescriptor "apple-touch-icon.png" alternate 180;
    mkDescriptor "favicon.png" primary 48;
    mkDescriptor "favicon-32x32.png" primary 32;
    mkDescriptor "favicon-16x16.png" primary 16;
    mkDescriptor "android-chrome-192x192.png" primary 192;
    mkDescriptor "android-chrome-512x512.png" primary 512;
    mkDescriptor "mstile-150x150.png" primary 150 ].

(** The raster a descriptor is made from. *)
Definition rasterOf {IM : Imaging} (s : Source)
    (faviconImg appleTouchIconImg : Image) : Image :=
  match s with
  | primary => faviconImg
  | alternate => appleTouchIconImg
  end.

(** The paths a successful [Add] registers, in program order. *)
Definition addedPaths : list string :=
  [ "/apple-touch-icon.png"; "/favicon.png"; "/favicon-32x32.png";
    "/favicon-16x16.png"; "/site.webmanifest"; "/android-chrome-192x192.png";
    "/android-chrome-512x512.png"; "/browserconfig.xml"; "/mstile-150x150.png" ].

(** [sub] occurs in [s]. *)
Definition occurs (sub s : string) : Prop :=
  exists before after, s = before ++ sub ++ after.

(** ** A small codec to run the package on

    A stand-in for the image library with rasters reduced to their
    dimensions.  The first two bytes of a source are its width and height;
    as in the library, resizing an empty raster gives an empty raster and
    an empty raster cannot be encoded as PNG.  [plainJSON] quotes strings
    that hold nothing to escape. *)

Module Tiny.

Record raster : Type := mkRaster { width : Z; height : Z }.

Definition Z_of_byte (b : byte) : Z := Z.of_N (Byte.to_N b).

Definition byte_of_Z (z : Z) : byte := byte_of_ascii (ascii_of_N (Z.to_N z)).

Definition decode (bs : bytes) : string + raster :=
  match bs with
  | w :: h :: _ => inr (mkRaster (Z_of_byte w) (Z_of_byte h))
  | _ => inl "image: unknown format"
  end.

Definition resize (i : raster) (w h : Z) (f : ResampleFilter) : raster :=
  if ((width i <=? 0) || (height i <=? 0))%Z%bool then mkRaster 0 0
  else mkRaster w h.

Definition formatName (f : Format) : string :=
  match f with
  | JPEG => "JPEG" | PNG => "PNG" | GIF => "GIF" | TIFF => "TIFF" | BMP => "BMP"
  end.

Definition encode (i : raster) (f : Format) : string + bytes :=
  if ((width i <=? 0) || (height i <=? 0))%Z%bool
  then inl "png: invalid format: invalid image size"
  else inr (bytes_of_string (formatName f) ++
            [byte_of_Z (width i / 256); byte_of_Z (width i mod 256);
             byte_of_Z (height i / 256); byte_of_Z (height i mod 256)])%list.

Definition imaging : Imaging :=
  {| Image := raster; error := string;
     Decode := decode; Resize := resize; Encode := encode |}.

Definition plainJSON : JSONString := {| appendString := quoted |}.

(** A router group mounted at [/icons] with nothing registered. *)
Definition group : RouterGroup := mkRouterGroup "/icons" [].

(** A source of 64 x 64 pixels, an empty one, and no source at all. *)
Definition square64 : bytes := [x40; x40].
Definition empty0 : bytes := [x00; x00].

Definition app : Options.t :=
  {| Options.Name := "App"; Options.ShortName := EmptyString;
     Options.Display := EmptyString; Options.StartURL := EmptyString;
     Options.ThemeColor := EmptyString; Options.BackgroundColor := EmptyString;
     Options.TileColor := EmptyString;
     Options.Favicon := square64; Options.AppleTouchIcon := None |}.

(** [Add] and the manifest on the stand-in collaborators. *)
Definition run (r : RouterGroup) (o : Options.t) : RouterGroup * option string :=
  @Add imaging plainJSON r o.

Definition manifest (r : RouterGroup) (o : Options.t) : json :=
  webmanifest_json (manifestOf r o).

(** [app] with an empty favicon next to a sound touch icon, with a
    favicon that is no image, and with a touch icon that is a non-nil
    empty slice. *)
Definition emptyFavicon : Options.t :=
  Options.mk "App" EmptyString EmptyString EmptyString EmptyString EmptyString
    EmptyString empty0 (Some square64).

Definition noFavicon : Options.t :=
  Options.mk "App" EmptyString EmptyString EmptyString EmptyString EmptyString
    EmptyString [] None.

Definition emptyTouchIcon : Options.t :=
  Options.withAppleTouchIcon app (Some []).

End Tiny.

(** * Properties *)

(** ** Strings *)

Lemma substring_at_end (s t : string) :
  substring (String.length s) (String.length t) (s ++ t) = t.
Proof.
  induction s as [|c s IH]; simpl.
  - induction t as [|c t IHt]; simpl; [reflexivity|].
    now rewrite IHt.
  - exact IH.
Qed.

Lemma length_append (s t : string) :
  String.length (s ++ t) = (String.length s + String.length t)%nat.
Proof. induction s as [|c s IH]; simpl; [reflexivity | now rewrite IH]. Qed.

Lemma HasSuffix_append (s t : string) : HasSuffix (s ++ t) t = true.
Proof.
  unfold HasSuffix. rewrite length_append.
  replace (String.length s + String.length t - String.length t)%nat
    with (String.length s) by lia.
  rewrite substring_at_end, String.eqb_refl, andb_true_r.
  apply Nat.leb_le. lia.
Qed.

(** The path the manifest prefixes its icons with always ends with a
    separator. *)
Lemma manifestPath_HasSuffix (r : RouterGroup) :
  HasSuffix (manifestPath r) "/" = true.
Proof.
  unfold manifestPath.
  destruct (HasSuffix (BasePath r) "/") eqn:E; simpl.
  - exact E.
  - apply HasSuffix_append.
Qed.

(** ** The router group *)

Lemma registered_extend (r : RouterGroup) (l : list Route) :
  registered r (extend r l) = l.
Proof.
  unfold registered, extend; simpl.
  induction (routes r) as [|rt rs IH]; simpl; [reflexivity | exact IH].
Qed.

Lemma extend_nil (r : RouterGroup) : extend r [] = r.
Proof. destruct r; unfold extend; simpl. now rewrite app_nil_r. Qed.

Lemma GET_extend (r : RouterGroup) (l : list Route) (p : string) (h : Response) :
  GET (extend r l) p h = extend r (l ++ [mkRoute "GET" p h]).
Proof. unfold GET, extend; simpl. now rewrite app_assoc. Qed.

(** ** [Add] runs its steps in order *)

Section Run.
Context {IM : Imaging} {JS : JSONString}.

Lemma addIcon_extend (r : RouterGroup) (l : list Route) (i : Image)
    (n : string) (sz : Z) :
  addIcon (extend r l) (mkAddIconOptions n i sz PNG "image/png") =
  match iconStep i n sz with
  | inl err => (extend r l, Some err)
  | inr rt => (extend r (l ++ [rt]), None)
  end.
Proof.
  unfold addIcon, iconStep; simpl.
  destruct (Encode (Resize i sz sz Lanczos) PNG); [reflexivity|].
  now rewrite GET_extend.
Qed.

Lemma manifestOf_extend (r : RouterGroup) (l : list Route) (o : Options.t) :
  manifestOf (extend r l) o = manifestOf r o.
Proof. reflexivity. Qed.

Theorem Add_collect (r : RouterGroup) (o : Options.t) (faviconImg appleTouchIconImg : Image) :
  Decode (Options.Favicon o) = inr faviconImg ->
  appleTouchIconSource o faviconImg = inr appleTouchIconImg ->
  Add r o =
  (extend r (fst (collect (steps r o faviconImg appleTouchIconImg))),
   snd (collect (steps r o faviconImg appleTouchIconImg))).
Proof.
  intros Hf Ha. unfold Add. rewrite Hf.
  unfold appleTouchIconSource in Ha. rewrite Ha.
  rewrite <- (extend_nil r) at 1.
  unfold addAppleTouchIcon, addFavicon, addWebmanifest, addBrowserConfig,
    json_Marshal, steps, orReturn.
  repeat (rewrite ?GET_extend, ?addIcon_extend, ?manifestOf_extend; simpl;
          match goal with
          | |- context [iconStep ?i ?n ?z] => destruct (iconStep i n z)
          | _ => idtac
          end; simpl; try reflexivity).
Qed.

End Run.

(** ** What [collect] keeps *)

Section Collect.
Context {IM : Imaging}.

Lemma collect_None (l : list (error + Route)) (rs : list Route) :
  collect l = (rs, None) -> l = map inr rs.
Proof.
  revert rs. induction l as [|[err|rt] l IH]; simpl; intros rs H.
  - now inversion H.
  - discriminate.
  - destruct (collect l) as [rs' res] eqn:E. inversion H; subst.
    simpl. now rewrite (IH rs' eq_refl).
Qed.

Lemma collect_Some (l : list (error + Route)) (rs : list Route) (err : error) :
  collect l = (rs, Some err) ->
  exists rest, l = (map inr rs ++ inl err :: rest)%list.
Proof.
  revert rs. induction l as [|[e|rt] l IH]; simpl; intros rs H.
  - discriminate.
  - inversion H; subst. now exists l.
  - destruct (collect l) as [rs' res] eqn:E. inversion H; subst.
    destruct (IH rs' eq_refl) as [rest ->]. now exists rest.
Qed.

End Collect.

Lemma registered_same (r : RouterGroup) : registered r r = [].
Proof. unfold registered. apply skipn_all. Qed.

Lemma string_app_assoc (a b c : string) : (a ++ b) ++ c = a ++ b ++ c.
Proof. induction a as [|x a IH]; simpl; [reflexivity | now rewrite IH]. Qed.

(** ** The outcomes of [Add] *)

Section Outcomes.
Context {IM : Imaging} {JS : JSONString}.

(** The three ways [Add] returns: the favicon is not decoded, the touch
    icon is not decoded, or both are and the steps run. *)
Lemma Add_cases (r : RouterGroup) (o : Options.t) (r' : RouterGroup)
    (res : option error) :
  Add r o = (r', res) ->
  (exists err, Decode (Options.Favicon o) = inl err /\ r' = r /\ res = Some err) \/
  (exists faviconImg err,
     Decode (Options.Favicon o) = inr faviconImg /\
     appleTouchIconSource o faviconImg = inl err /\ r' = r /\ res = Some err) \/
  (exists faviconImg appleTouchIconImg,
     Decode (Options.Favicon o) = inr faviconImg /\
     appleTouchIconSource o faviconImg = inr appleTouchIconImg /\
     collect (steps r o faviconImg appleTouchIconImg) = (registered r r', res) /\
     r' = extend r (registered r r')).
Proof.
  intros H.
  destruct (Decode (Options.Favicon o)) as [err|faviconImg] eqn:Hf.
  - left. unfold Add in H. rewrite Hf in H. inversion H. now exists err.
  - right.
    destruct (appleTouchIconSource o faviconImg) as [err|appleTouchIconImg] eqn:Ha.
    + left. unfold Add in H. rewrite Hf in H.
      unfold appleTouchIconSource in Ha. rewrite Ha in H. inversion H.
      now exists faviconImg, err.
    + right. exists faviconImg, appleTouchIconImg.
      rewrite (Add_collect r o _ _ Hf Ha) in H.
      destruct (collect (steps r o faviconImg appleTouchIconImg)) as [rs res'].
      simpl in H. inversion H; subst.
      rewrite registered_extend. auto.
Qed.

(** A successful [Add] has decoded both sources and registered the route
    of every step. *)
Lemma Add_success (r : RouterGroup) (o : Options.t) (r' : RouterGroup) :
  Add r o = (r', None) ->
  exists faviconImg appleTouchIconImg,
    Decode (Options.Favicon o) = inr faviconImg /\
    appleTouchIconSource o faviconImg = inr appleTouchIconImg /\
    steps r o faviconImg appleTouchIconImg = map inr (registered r r').
Proof.
  intros H. destruct (Add_cases _ _ _ _ H) as [(e & _ & _ & F) | [(f & e & _ & _ & _ & F) | (f & a & Hf & Ha & Hc & _)]];
    try discriminate.
  exists f, a. repeat split; trivial. now apply collect_None.
Qed.

(** An icon step that succeeds has encoded the resized raster as PNG and
    serves it as [image/png] at the asset's path. *)
Lemma iconStep_inr (i : Image) (n : string) (sz : Z) (rt : Route) :
  iconStep i n sz = inr rt ->
  exists png,
    Encode (Resize i sz sz Lanczos) PNG = inr png /\
    rt = mkRoute "GET" ("/" ++ n) (Data StatusOK "image/png" png).
Proof.
  unfold iconStep. destruct (Encode (Resize i sz sz Lanczos) PNG) as [e|png];
    intros H; inversion H. now exists png.
Qed.

Lemma iconStep_inl (i : Image) (n : string) (sz : Z) (err : error) :
  iconStep i n sz = inl err -> Encode (Resize i sz sz Lanczos) PNG = inl err.
Proof.
  unfold iconStep. destruct (Encode (Resize i sz sz Lanczos) PNG) as [e|png];
    intros H; inversion H. reflexivity.
Qed.

(** The nine routes of a successful [Add], one by one. *)
Lemma Add_success_routes (r : RouterGroup) (o : Options.t) (r' : RouterGroup) :
  Add r o = (r', None) ->
  exists faviconImg appleTouchIconImg p180 p48 p32 p16 p192 p512 p150,
    Decode (Options.Favicon o) = inr faviconImg /\
    appleTouchIconSource o faviconImg = inr appleTouchIconImg /\
    Encode (Resize appleTouchIconImg 180 180 Lanczos) PNG = inr p180 /\
    Encode (Resize faviconImg 48 48 Lanczos) PNG = inr p48 /\
    Encode (Resize faviconImg 32 32 Lanczos) PNG = inr p32 /\
    Encode (Resize faviconImg 16 16 Lanczos) PNG = inr p16 /\
    Encode (Resize faviconImg 192 192 Lanczos) PNG = inr p192 /\
    Encode (Resize faviconImg 512 512 Lanczos) PNG = inr p512 /\
    Encode (Resize faviconImg 150 150 Lanczos) PNG = inr p150 /\
    registered r r' =
    [ mkRoute "GET" "/apple-touch-icon.png" (Data StatusOK "image/png" p180);
      mkRoute "GET" "/favicon.png" (Data StatusOK "image/png" p48);
      mkRoute "GET" "/favicon-32x32.png" (Data StatusOK "image/png" p32);
      mkRoute "GET" "/favicon-16x16.png" (Data StatusOK "image/png" p16);
      manifestRoute r o;
      mkRoute "GET" "/android-chrome-192x192.png" (Data StatusOK "image/png" p192);
      mkRoute "GET" "/android-chrome-512x512.png" (Data StatusOK "image/png" p512);
      browserConfigRoute o;
      mkRoute "GET" "/mstile-150x150.png" (Data StatusOK "image/png" p150) ].
Proof.
  intros H. destruct (Add_success _ _ _ H) as (f & a & Hf & Ha & Hs).
  exists f, a. unfold steps in Hs.
  destruct (registered r r') as [|r1 [|r2 [|r3 [|r4 [|r5 [|r6 [|r7 [|r8 [|r9 [|r10 l]]]]]]]]]];
    simpl in Hs; try discriminate.
  injection Hs as H1 H2 H3 H4 H5 H6 H7 H8 H9.
  apply iconStep_inr in H1, H2, H3, H4, H6, H7, H9.
  destruct H1 as (p180 & E1 & ->), H2 as (p48 & E2 & ->), H3 as (p32 & E3 & ->),
    H4 as (p16 & E4 & ->), H6 as (p192 & E6 & ->), H7 as (p512 & E7 & ->),
    H9 as (p150 & E9 & ->).
  subst r5 r8.
  exists p180, p48, p32, p16, p192, p512, p150. repeat split; trivial.
Qed.

End Outcomes.

(** ** The two documents, whenever they are registered *)

Lemma serve_In (p : string) (l : list Route) (resp : Response) :
  serve p l = Some resp ->
  exists rt, In rt l /\ relativePath rt = p /\ handler rt = resp.
Proof.
  induction l as [|rt l IH]; simpl; [discriminate|].
  destruct (String.eqb (method rt) "GET" && String.eqb (relativePath rt) p)%bool eqn:E.
  - intros H. injection H as <-. apply andb_true_iff in E as [_ E].
    apply String.eqb_eq in E. exists rt. auto.
  - intros H. destruct (IH H) as (rt' & Hin & Hp & Hh). exists rt'. auto.
Qed.

Lemma collect_In {IM : Imaging} (l : list (error + Route)) (rs : list Route)
    (res : option error) (rt : Route) :
  collect l = (rs, res) -> In rt rs -> In (inr rt) l.
Proof.
  revert rs. induction l as [|[e|x] l IH]; simpl; intros rs H Hin.
  - inversion H; subst. contradiction.
  - inversion H; subst. contradiction.
  - destruct (collect l) as [rs' res'] eqn:E. inversion H; subst.
    destruct Hin as [->|Hin]; [now left | right; now apply (IH rs')].
Qed.

(** Among the steps only the manifest is registered at
    [/site.webmanifest], and only the browserconfig document at
    [/browserconfig.xml]. *)
Lemma steps_documents {IM : Imaging} {JS : JSONString}
    (r : RouterGroup) (o : Options.t) (faviconImg appleTouchIconImg : Image)
    (rt : Route) :
  In (inr rt) (steps r o faviconImg appleTouchIconImg) ->
  (relativePath rt = "/site.webmanifest" -> rt = manifestRoute r o) /\
  (relativePath rt = "/browserconfig.xml" -> rt = browserConfigRoute o).
Proof.
  unfold steps. simpl. intros H.
  repeat (destruct H as [H|H];
          [first
             [ apply iconStep_inr in H; destruct H as (png & _ & ->);
               split; intros F; discriminate F
             | injection H as <-; split; intros F;
               first [reflexivity | discriminate F] ] |]).
  contradiction.
Qed.

(** Whatever [Add] returns, a document it has registered at one of the
    two paths is the one it built. *)
Lemma Add_documents {IM : Imaging} {JS : JSONString}
    (r : RouterGroup) (o : Options.t) (r' : RouterGroup) (res : option error)
    (resp : Response) :
  Add r o = (r', res) ->
  (serve "/site.webmanifest" (registered r r') = Some resp ->
   resp = handler (manifestRoute r o)) /\
  (serve "/browserconfig.xml" (registered r r') = Some resp ->
   resp = handler (browserConfigRoute o)).
Proof.
  intros H.
  destruct (Add_cases _ _ _ _ H)
    as [(e & _ & -> & _) | [(f & e & _ & _ & -> & _) | (f & a & _ & _ & Hc & _)]].
  - rewrite registered_same. split; discriminate.
  - rewrite registered_same. split; discriminate.
  - split; intros S; destruct (serve_In _ _ _ S) as (rt & Hin & Hp & <-);
      apply (collect_In _ _ _ _ Hc) in Hin;
      destruct (steps_documents _ _ _ _ _ Hin) as [Hm Hb].
    + now rewrite (Hm Hp).
    + now rewrite (Hb Hp).
Qed.

(** * The claims *)

(** ** C1: every catalog entry is served *)

(** C1.  After a successful [Add], every descriptor of the catalog has a
    GET route at ["/"] followed by its name; the response is the PNG
    encoding of the source raster of the descriptor (the alternate raster
    for [apple-touch-icon.png], the primary one otherwise) resized to
    size x size with the Lanczos filter, and its content type is
    [image/png]. *)
Theorem Add_serves_catalog {IM : Imaging} {JS : JSONString}
    (r : RouterGroup) (o : Options.t) (r' : RouterGroup) :
  Add r o = (r', None) ->
  exists faviconImg appleTouchIconImg,
    Decode (Options.Favicon o) = inr faviconImg /\
    appleTouchIconSource o faviconImg = inr appleTouchIconImg /\
    forall d, In d catalog ->
      exists png,
        Encode (Resize (rasterOf (source d) faviconImg appleTouchIconImg)
                  (pixels d) (pixels d) Lanczos) PNG = inr png /\
        serve ("/" ++ asset d) (registered r r') =
          Some (Data StatusOK "image/png" png).
Proof.
  intros H.
  destruct (Add_success_routes _ _ _ H)
    as (f & a & p180 & p48 & p32 & p16 & p192 & p512 & p150 &
        Hf & Ha & E180 & E48 & E32 & E16 & E192 & E512 & E150 & Hreg).
  exists f, a. split; [exact Hf|]. split; [exact Ha|].
  intros d Hd. rewrite Hreg. simpl in Hd.
  repeat (destruct Hd as [<-|Hd]; [eexists; split; [eassumption|reflexivity]|]).
  contradiction.
Qed.

(** The catalog on the stand-in codec: the 16 x 16 favicon made from a
    64 x 64 source. *)
Lemma Add_serves_catalog_witness :
  Tiny.run Tiny.group Tiny.app = (fst (Tiny.run Tiny.group Tiny.app), None) /\
  exists png,
    Tiny.encode (Tiny.resize (Tiny.mkRaster 64 64) 16 16 Lanczos) PNG = inr png /\
    serve "/favicon-16x16.png"
      (registered Tiny.group (fst (Tiny.run Tiny.group Tiny.app))) =
      Some (Data StatusOK "image/png" png).
Proof.
  split; [reflexivity|].
  destruct (@Add_serves_catalog Tiny.imaging Tiny.plainJSON Tiny.group Tiny.app
              (fst (Tiny.run Tiny.group Tiny.app)) eq_refl)
    as (f & a & Hf & Ha & H).
  injection Hf as <-.
  destruct (H (mkDescriptor "favicon-16x16.png" primary 16)) as (png & E & S).
  - simpl. auto.
  - exists png. split; [exact E | exact S].
Defined.

(** ** C5: an undecodable favicon *)

(** C5.  When the primary source is not decoded, [Add] returns the error
    of [Decode] and the router group is left as it was: no route is
    registered. *)
Theorem Add_undecodable_favicon {IM : Imaging} {JS : JSONString}
    (r : RouterGroup) (o : Options.t) (err : error) :
  Decode (Options.Favicon o) = inl err ->
  Add r o = (r, Some err) /\ registered r (fst (Add r o)) = [].
Proof.
  intros H. unfold Add. rewrite H. simpl. split; [reflexivity|].
  apply registered_same.
Qed.

Lemma Add_undecodable_favicon_witness :
  Tiny.decode (Options.Favicon Tiny.noFavicon) = inl "image: unknown format" /\
  Tiny.run Tiny.group Tiny.noFavicon = (Tiny.group, Some "image: unknown format") /\
  registered Tiny.group (fst (Tiny.run Tiny.group Tiny.noFavicon)) = [].
Proof.
  split; [reflexivity|].
  exact (@Add_undecodable_favicon Tiny.imaging Tiny.plainJSON Tiny.group
           Tiny.noFavicon "image: unknown format" eq_refl).
Defined.

(** ** C6: the touch icon without an alternate source *)

(** A step that succeeds puts its route in front of what the later steps
    collect. *)
Lemma collect_head {IM : Imaging} (rt : Route) (l : list (error + Route)) :
  fst (collect (inr rt :: l)) = rt :: fst (collect l).
Proof. simpl. now destruct (collect l). Qed.

(** Once the favicon is decoded and its raster, resized to 180 x 180, is
    encoded, [Add] with [AppleTouchIcon] nil serves that encoding as the
    touch icon, whatever the later steps do. *)
Lemma Add_touch_icon_from_favicon {IM : Imaging} {JS : JSONString}
    (r : RouterGroup) (o : Options.t) (faviconImg : Image) (png : bytes) :
  Decode (Options.Favicon o) = inr faviconImg ->
  Encode (Resize faviconImg 180 180 Lanczos) PNG = inr png ->
  serve "/apple-touch-icon.png"
    (registered r (fst (Add r (Options.withAppleTouchIcon o None)))) =
  Some (Data StatusOK "image/png" png).
Proof.
  intros Hf He.
  rewrite (Add_collect r (Options.withAppleTouchIcon o None)
             faviconImg faviconImg Hf eq_refl).
  cbn [fst]. rewrite registered_extend.
  unfold steps. unfold iconStep at 1. rewrite He.
  rewrite collect_head. reflexivity.
Qed.

(** C6.  [Add] with [AppleTouchIcon] nil and [Add] with [AppleTouchIcon]
    set to the bytes of [Favicon] end in the same router group and the
    same result, so the touch icon served is the same; and when the
    favicon is decoded and its raster, resized to 180 x 180, is encoded,
    both runs do serve a touch icon, with these very bytes. *)
Theorem Add_touch_icon_default {IM : Imaging} {JS : JSONString}
    (r : RouterGroup) (o : Options.t) :
  Add r (Options.withAppleTouchIcon o None) =
  Add r (Options.withAppleTouchIcon o (Some (Options.Favicon o))) /\
  serve "/apple-touch-icon.png"
    (registered r (fst (Add r (Options.withAppleTouchIcon o None)))) =
  serve "/apple-touch-icon.png"
    (registered r
       (fst (Add r (Options.withAppleTouchIcon o (Some (Options.Favicon o)))))) /\
  (forall faviconImg png,
     Decode (Options.Favicon o) = inr faviconImg ->
     Encode (Resize faviconImg 180 180 Lanczos) PNG = inr png ->
     serve "/apple-touch-icon.png"
       (registered r (fst (Add r (Options.withAppleTouchIcon o None)))) =
       Some (Data StatusOK "image/png" png) /\
     serve "/apple-touch-icon.png"
       (registered r
          (fst (Add r (Options.withAppleTouchIcon o (Some (Options.Favicon o)))))) =
       Some (Data StatusOK "image/png" png)).
Proof.
  assert (E : Add r (Options.withAppleTouchIcon o None) =
              Add r (Options.withAppleTouchIcon o (Some (Options.Favicon o)))).
  { unfold Add; simpl.
    destruct (Decode (Options.Favicon o)) as [err|faviconImg]; reflexivity. }
  split; [exact E|]. split; [now rewrite E|].
  intros faviconImg png Hf He.
  rewrite <- E. split; exact (Add_touch_icon_from_favicon r o faviconImg png Hf He).
Qed.

(** On the stand-in codec: the favicon of [app] is a 64 x 64 raster, and
    both runs serve its 180 x 180 encoding as the touch icon. *)
Lemma Add_touch_icon_default_witness :
  Tiny.decode (Options.Favicon Tiny.app) = inr (Tiny.mkRaster 64 64) /\
  Tiny.encode (Tiny.resize (Tiny.mkRaster 64 64) 180 180 Lanczos) PNG =
    inr (bytes_of_string "PNG" ++ [x00; xb4; x00; xb4])%list /\
  serve "/apple-touch-icon.png"
    (registered Tiny.group
       (fst (Tiny.run Tiny.group (Options.withAppleTouchIcon Tiny.app None)))) =
    Some (Data StatusOK "image/png"
            (bytes_of_string "PNG" ++ [x00; xb4; x00; xb4])%list) /\
  serve "/apple-touch-icon.png"
    (registered Tiny.group
       (fst (Tiny.run Tiny.group
               (Options.withAppleTouchIcon Tiny.app
                  (Some (Options.Favicon Tiny.app)))))) =
    Some (Data StatusOK "image/png"
            (bytes_of_string "PNG" ++ [x00; xb4; x00; xb4])%list).
Proof.
  split; [reflexivity|]. split; [reflexivity|].
  exact (proj2 (proj2 (@Add_touch_icon_default Tiny.imaging Tiny.plainJSON
                         Tiny.group Tiny.app))
           (Tiny.mkRaster 64 64)
           (bytes_of_string "PNG" ++ [x00; xb4; x00; xb4])%list
           eq_refl eq_refl).
Defined.

(** On the stand-in codec the touch icon of [app] is served, and is the
    same under both settings. *)
Example touch_icon_default_app :
  serve "/apple-touch-icon.png"
    (registered Tiny.group (fst (Tiny.run Tiny.group Tiny.app))) =
  Some (Data StatusOK "image/png"
          (bytes_of_string "PNG" ++ [x00; xb4; x00; xb4])%list) /\
  Tiny.run Tiny.group Tiny.app =
  Tiny.run Tiny.group (Options.withAppleTouchIcon Tiny.app (Some Tiny.square64)).
Proof. split; reflexivity. Qed.

(** ** C9: the routes of a successful [Add] *)

(** C9, as the specification counts.  On the stand-in codec [Add] succeeds
    for [app] and has then registered nine handlers, not eleven. *)
Lemma Add_registers_not_eleven :
  snd (Tiny.run Tiny.group Tiny.app) = None /\
  length (registered Tiny.group (fst (Tiny.run Tiny.group Tiny.app))) = 9%nat /\
  length (registered Tiny.group (fst (Tiny.run Tiny.group Tiny.app))) <> 11%nat.
Proof. repeat split. vm_compute. discriminate. Qed.

(** C9, amended.  A successful [Add] registers exactly nine handlers, all
    for GET, at nine distinct paths: the seven icons of the catalog,
    [/site.webmanifest] and [/browserconfig.xml]. *)
Theorem Add_registers_nine {IM : Imaging} {JS : JSONString}
    (r : RouterGroup) (o : Options.t) (r' : RouterGroup) :
  Add r o = (r', None) ->
  map relativePath (registered r r') = addedPaths /\
  Forall (fun rt => method rt = "GET") (registered r r') /\
  NoDup addedPaths /\
  length (registered r r') = 9%nat /\
  (forall p, In p addedPaths <->
     p = "/site.webmanifest" \/ p = "/browserconfig.xml" \/
     exists d, In d catalog /\ p = "/" ++ asset d).
Proof.
  intros H.
  destruct (Add_success_routes _ _ _ H)
    as (f & a & p180 & p48 & p32 & p16 & p192 & p512 & p150 &
        _ & _ & _ & _ & _ & _ & _ & _ & _ & Hreg).
  rewrite Hreg. split; [reflexivity|]. split.
  { repeat constructor. }
  split.
  { unfold addedPaths.
    repeat (constructor; [simpl; intros F; repeat (destruct F as [F|F]; [discriminate F|]); exact F|]).
    constructor. }
  split; [reflexivity|].
  intros p. unfold addedPaths, catalog. simpl. split.
  - intros Hp.
    repeat (destruct Hp as [<-|Hp];
            [first [ now left | now (right; left)
                   | right; right; eexists (mkDescriptor _ _ _); split; revgoals;
                     [ reflexivity
                     | repeat (first [left; reflexivity | right]) ] ] |]).
    contradiction.
  - intros [->|[->|(d & Hd & ->)]]; [tauto | tauto |].
    repeat (destruct Hd as [<-|Hd]; [simpl; tauto|]). contradiction.
Qed.

Lemma Add_registers_nine_witness :
  Tiny.run Tiny.group Tiny.app = (fst (Tiny.run Tiny.group Tiny.app), None) /\
  map relativePath (registered Tiny.group (fst (Tiny.run Tiny.group Tiny.app))) =
  addedPaths.
Proof.
  split; [reflexivity|].
  exact (proj1 (@Add_registers_nine Tiny.imaging Tiny.plainJSON Tiny.group Tiny.app
                  (fst (Tiny.run Tiny.group Tiny.app)) eq_refl)).
Defined.

(** ** C4: what stays registered when [Add] fails *)

(** An error among the steps is the error of encoding some descriptor of
    the catalog. *)
Lemma steps_inl {IM : Imaging} {JS : JSONString}
    (r : RouterGroup) (o : Options.t) (faviconImg appleTouchIconImg : Image)
    (err : error) :
  In (inl err) (steps r o faviconImg appleTouchIconImg) ->
  exists d, In d catalog /\
    Encode (Resize (rasterOf (source d) faviconImg appleTouchIconImg)
              (pixels d) (pixels d) Lanczos) PNG = inl err.
Proof.
  unfold steps. simpl. intros H.
  repeat (destruct H as [H|H];
          [first
             [ discriminate H
             | match type of H with
               | iconStep _ ?n ?z = _ =>
                   apply iconStep_inl in H;
                   first [ exists (mkDescriptor n primary z); split;
                           [simpl; tauto | exact H]
                         | exists (mkDescriptor n alternate z); split;
                           [simpl; tauto | exact H] ]
               end ] |]).
  contradiction.
Qed.

(** C4, as the specification states it.  On the stand-in codec, with a
    favicon that decodes to an empty raster and a sound touch icon, [Add]
    returns the error of the PNG encoder, and the touch icon registered
    before the failing step is still served. *)
Lemma Add_partial_registration :
  snd (Tiny.run Tiny.group Tiny.emptyFavicon) =
    Some "png: invalid format: invalid image size" /\
  serve "/apple-touch-icon.png"
    (registered Tiny.group (fst (Tiny.run Tiny.group Tiny.emptyFavicon))) =
    Some (Data StatusOK "image/png"
            (bytes_of_string "PNG" ++ [x00; xb4; x00; xb4])%list).
Proof. split; reflexivity. Qed.

(** C4, amended.  When [Add] returns an error, either a source was not
    decoded, the error is that of [Decode] and no route is registered; or
    both sources were decoded, the error is that of encoding one entry of
    the catalog, and the routes of the steps before the failing one are
    registered and stay so. *)
Theorem Add_error_registrations {IM : Imaging} {JS : JSONString}
    (r : RouterGroup) (o : Options.t) (r' : RouterGroup) (err : error) :
  Add r o = (r', Some err) ->
  (Decode (Options.Favicon o) = inl err /\ r' = r /\ registered r r' = []) \/
  (exists faviconImg,
     Decode (Options.Favicon o) = inr faviconImg /\
     appleTouchIconSource o faviconImg = inl err /\
     r' = r /\ registered r r' = []) \/
  (exists faviconImg appleTouchIconImg rest d,
     Decode (Options.Favicon o) = inr faviconImg /\
     appleTouchIconSource o faviconImg = inr appleTouchIconImg /\
     steps r o faviconImg appleTouchIconImg =
       (map inr (registered r r') ++ inl err :: rest)%list /\
     r' = extend r (registered r r') /\
     In d catalog /\
     Encode (Resize (rasterOf (source d) faviconImg appleTouchIconImg)
               (pixels d) (pixels d) Lanczos) PNG = inl err).
Proof.
  intros H.
  destruct (Add_cases _ _ _ _ H)
    as [(e & Hf & -> & E) | [(f & e & Hf & Ha & -> & E) | (f & a & Hf & Ha & Hc & Hr)]].
  - left. injection E as <-. rewrite registered_same. auto.
  - right; left. injection E as <-. exists f. rewrite registered_same. auto.
  - right; right. destruct (collect_Some _ _ _ Hc) as [rest Hs].
    destruct (steps_inl r o f a err) as (d & Hd & He).
    { rewrite Hs. apply in_or_app. right. now left. }
    exists f, a, rest, d. auto 10.
Qed.

Lemma Add_error_registrations_witness :
  Tiny.run Tiny.group Tiny.emptyFavicon =
    (fst (Tiny.run Tiny.group Tiny.emptyFavicon),
     Some "png: invalid format: invalid image size") /\
  fst (Tiny.run Tiny.group Tiny.emptyFavicon) =
    extend Tiny.group
      (registered Tiny.group (fst (Tiny.run Tiny.group Tiny.emptyFavicon))).
Proof.
  split; [reflexivity|].
  destruct (@Add_error_registrations Tiny.imaging Tiny.plainJSON Tiny.group
              Tiny.emptyFavicon (fst (Tiny.run Tiny.group Tiny.emptyFavicon))
              "png: invalid format: invalid image size" eq_refl)
    as [(Hf & _) | [(f & _ & Ha & _) | (f & a & rest & d & _ & _ & _ & Hr & _)]].
  - discriminate Hf.
  - discriminate Ha.
  - exact Hr.
Defined.

(** ** C7: the defaults of the manifest *)

(** The fields of the manifest that [Add] marshals. *)
Lemma manifest_fields (r : RouterGroup) (o : Options.t) :
  get "name" (webmanifest_json (manifestOf r o)) = Some (JString (Options.Name o)) /\
  get "short_name" (webmanifest_json (manifestOf r o)) =
    Some (JString (Options.ShortName o)) /\
  get "display" (webmanifest_json (manifestOf r o)) =
    Some (JString (if is_empty (Options.Display o) then "standalone"
                   else Options.Display o)) /\
  get "start_url" (webmanifest_json (manifestOf r o)) =
    (if is_empty (Options.StartURL o) then None
     else Some (JString (Options.StartURL o))) /\
  get "background_color" (webmanifest_json (manifestOf r o)) =
    Some (JString "#ffffff") /\
  get "theme_color" (webmanifest_json (manifestOf r o)) = Some (JString "#ffffff").
Proof.
  unfold manifestOf; simpl.
  destruct (is_empty (Options.Display o)); simpl;
    destruct (is_empty (Options.StartURL o)); simpl; repeat split; reflexivity.
Qed.

(** C7.  Whatever the options, the manifest that [Add] registers (it is
    served after every successful [Add]) is the marshalled form of a
    document whose [display] is ["standalone"] when [Display] is empty,
    whose [theme_color] and [background_color] are ["#ffffff"] when the
    options leave them empty, and which has no [start_url] field when
    [StartURL] is empty. *)
Theorem Add_manifest_defaults {IM : Imaging} {JS : JSONString}
    (r : RouterGroup) (o : Options.t) (r' : RouterGroup) (res : option error) :
  Add r o = (r', res) ->
  let doc := webmanifest_json (manifestOf r o) in
  let served :=
    Data StatusOK "application/manifest+json" (bytes_of_string (render doc)) in
  (res = None -> serve "/site.webmanifest" (registered r r') = Some served) /\
  (forall resp,
     serve "/site.webmanifest" (registered r r') = Some resp -> resp = served) /\
  (Options.Display o = EmptyString ->
   get "display" doc = Some (JString "standalone")) /\
  (Options.ThemeColor o = EmptyString ->
   get "theme_color" doc = Some (JString "#ffffff")) /\
  (Options.BackgroundColor o = EmptyString ->
   get "background_color" doc = Some (JString "#ffffff")) /\
  (Options.StartURL o = EmptyString -> get "start_url" doc = None).
Proof.
  intros H doc served.
  destruct (manifest_fields r o) as (_ & _ & Hd & Hs & Hb & Ht).
  split.
  { intros ->.
    destruct (Add_success_routes _ _ _ H)
      as (f & a & p180 & p48 & p32 & p16 & p192 & p512 & p150 &
          _ & _ & _ & _ & _ & _ & _ & _ & _ & Hreg).
    rewrite Hreg. reflexivity. }
  split.
  { intros resp S. exact (proj1 (Add_documents _ _ _ _ resp H) S). }
  split; [intros E; unfold doc; rewrite Hd, E; reflexivity|].
  split; [intros _; exact Ht|].
  split; [intros _; exact Hb|].
  intros E. unfold doc. rewrite Hs, E. reflexivity.
Qed.

Lemma Add_manifest_defaults_witness :
  Tiny.run Tiny.group Tiny.app = (fst (Tiny.run Tiny.group Tiny.app), None) /\
  serve "/site.webmanifest"
    (registered Tiny.group (fst (Tiny.run Tiny.group Tiny.app))) =
    Some (Data StatusOK "application/manifest+json"
            (bytes_of_string
               (@render Tiny.plainJSON (Tiny.manifest Tiny.group Tiny.app)))) /\
  get "display" (Tiny.manifest Tiny.group Tiny.app) = Some (JString "standalone") /\
  get "theme_color" (Tiny.manifest Tiny.group Tiny.app) = Some (JString "#ffffff") /\
  get "background_color" (Tiny.manifest Tiny.group Tiny.app) =
    Some (JString "#ffffff") /\
  get "start_url" (Tiny.manifest Tiny.group Tiny.app) = None.
Proof.
  split; [reflexivity|].
  destruct (@Add_manifest_defaults Tiny.imaging Tiny.plainJSON Tiny.group Tiny.app
              (fst (Tiny.run Tiny.group Tiny.app)) None eq_refl)
    as (Hserved & _ & Hd & Ht & Hb & Hs).
  split; [apply Hserved; reflexivity|].
  split; [apply Hd; reflexivity|].
  split; [apply Ht; reflexivity|].
  split; [apply Hb; reflexivity | apply Hs; reflexivity].
Defined.

(** ** C8: the browserconfig document *)

Lemma tileColorOf_default (o : Options.t) :
  Options.TileColor o = EmptyString -> tileColorOf o = "#da532c".
Proof. unfold tileColorOf. now intros ->. Qed.

Lemma tileColorOf_set (o : Options.t) :
  Options.TileColor o <> EmptyString -> tileColorOf o = Options.TileColor o.
Proof.
  unfold tileColorOf. destruct (Options.TileColor o); [congruence | reflexivity].
Qed.

(** The document holds the tile colour between its tags, and the tile
    icon under its root-relative path. *)
Lemma browserConfig_occurs (tileColor : string) :
  occurs ("<TileColor>" ++ tileColor ++ "</TileColor>")
    (browserConfigHead ++ tileColor ++ browserConfigTail) /\
  occurs ("<square150x150logo src=" ++ quoted "/mstile-150x150.png" ++ "/>")
    (browserConfigHead ++ tileColor ++ browserConfigTail).
Proof.
  split.
  - exists ("<?xml version=" ++ quoted "1.0" ++ " encoding=" ++ quoted "utf-8" ++
            "?>" ++ LF ++ "<browserconfig>" ++ LF ++ "    <msapplication>" ++ LF ++
            "        <tile>" ++ LF ++ "            <square150x150logo src=" ++
            quoted "/mstile-150x150.png" ++ "/>" ++ LF ++ "            "),
           (LF ++ "        </tile>" ++ LF ++ "    </msapplication>" ++ LF ++
            "</browserconfig>").
    rewrite !string_app_assoc. reflexivity.
  - exists ("<?xml version=" ++ quoted "1.0" ++ " encoding=" ++ quoted "utf-8" ++
            "?>" ++ LF ++ "<browserconfig>" ++ LF ++ "    <msapplication>" ++ LF ++
            "        <tile>" ++ LF ++ "            "),
           (LF ++ "            <TileColor>" ++ tileColor ++ browserConfigTail).
    reflexivity.
Qed.

(** C8.  Whatever the options, the browserconfig document that [Add]
    registers (it is served after every successful [Add]) holds the tile
    colour of the options, or ["#da532c"] when [TileColor] is empty, and
    names the tile icon by the path [/mstile-150x150.png], whatever the
    base path of the router group. *)
Theorem Add_browserconfig {IM : Imaging} {JS : JSONString}
    (r : RouterGroup) (o : Options.t) (r' : RouterGroup) (res : option error) :
  Add r o = (r', res) ->
  exists tileColor,
    let doc := browserConfigHead ++ tileColor ++ browserConfigTail in
    let served := Data StatusOK "application/xml" (bytes_of_string doc) in
    (res = None -> serve "/browserconfig.xml" (registered r r') = Some served) /\
    (forall resp,
       serve "/browserconfig.xml" (registered r r') = Some resp -> resp = served) /\
    occurs ("<TileColor>" ++ tileColor ++ "</TileColor>") doc /\
    occurs ("<square150x150logo src=" ++ quoted "/mstile-150x150.png" ++ "/>") doc /\
    (Options.TileColor o = EmptyString -> tileColor = "#da532c") /\
    (Options.TileColor o <> EmptyString -> tileColor = Options.TileColor o).
Proof.
  intros H. exists (tileColorOf o). cbv zeta.
  split.
  { intros ->.
    destruct (Add_success_routes _ _ _ H)
      as (f & a & p180 & p48 & p32 & p16 & p192 & p512 & p150 &
          _ & _ & _ & _ & _ & _ & _ & _ & _ & Hreg).
    rewrite Hreg. reflexivity. }
  split.
  { intros resp S. exact (proj2 (Add_documents _ _ _ _ resp H) S). }
  destruct (browserConfig_occurs (tileColorOf o)) as [H1 H2].
  split; [exact H1|]. split; [exact H2|].
  split; [apply tileColorOf_default | apply tileColorOf_set].
Qed.

Lemma Add_browserconfig_witness :
  Tiny.run Tiny.group Tiny.app = (fst (Tiny.run Tiny.group Tiny.app), None) /\
  exists tileColor,
    serve "/browserconfig.xml"
      (registered Tiny.group (fst (Tiny.run Tiny.group Tiny.app))) =
      Some (Data StatusOK "application/xml"
              (bytes_of_string (browserConfigHead ++ tileColor ++ browserConfigTail))) /\
    tileColor = "#da532c".
Proof.
  split; [reflexivity|].
  destruct (@Add_browserconfig Tiny.imaging Tiny.plainJSON Tiny.group Tiny.app
              (fst (Tiny.run Tiny.group Tiny.app)) None eq_refl)
    as (tc & Hs & _ & _ & _ & Hd & _).
  exists tc. split; [apply Hs; reflexivity | apply Hd; reflexivity].
Defined.

(** ** C10: a touch icon that is set but is no image *)

(** C10.  When [AppleTouchIcon] is not nil, the touch icon is made from
    its bytes and from nothing else: if they are not decoded, [Add]
    returns a decode error (that of the favicon when it fails first) and
    registers nothing; if [Add] succeeds, they were decoded and the touch
    icon served is the encoding of that raster. *)
Theorem Add_touch_icon_not_nil {IM : Imaging} {JS : JSONString}
    (r : RouterGroup) (o : Options.t) (b : bytes) :
  Options.AppleTouchIcon o = Some b ->
  (forall err, Decode b = inl err ->
     exists err', Add r o = (r, Some err') /\
       (Decode (Options.Favicon o) = inl err' \/
        (exists faviconImg, Decode (Options.Favicon o) = inr faviconImg) /\
        err' = err)) /\
  (forall r', Add r o = (r', None) ->
     exists appleTouchIconImg png,
       Decode b = inr appleTouchIconImg /\
       Encode (Resize appleTouchIconImg 180 180 Lanczos) PNG = inr png /\
       serve "/apple-touch-icon.png" (registered r r') =
         Some (Data StatusOK "image/png" png)).
Proof.
  intros Hb. split.
  - intros err Hd. unfold Add. rewrite Hb.
    destruct (Decode (Options.Favicon o)) as [e|faviconImg] eqn:Hf.
    + exists e. auto.
    + rewrite Hd. exists err. split; [reflexivity|]. right. split; [|reflexivity].
      now exists faviconImg.
  - intros r' H.
    destruct (Add_success_routes _ _ _ H)
      as (f & a & p180 & p48 & p32 & p16 & p192 & p512 & p150 &
          _ & Ha & E180 & _ & _ & _ & _ & _ & _ & Hreg).
    unfold appleTouchIconSource in Ha. rewrite Hb in Ha.
    exists a, p180. split; [exact Ha|]. split; [exact E180|].
    rewrite Hreg. reflexivity.
Qed.

(** The touch icon of [emptyTouchIcon] is a non-nil empty slice: [Add]
    fails on it although the favicon is sound. *)
Lemma Add_touch_icon_not_nil_witness :
  Options.AppleTouchIcon Tiny.emptyTouchIcon = Some [] /\
  Tiny.decode [] = inl "image: unknown format" /\
  exists err',
    Tiny.run Tiny.group Tiny.emptyTouchIcon = (Tiny.group, Some err') /\
    err' = "image: unknown format".
Proof.
  split; [reflexivity|]. split; [reflexivity|].
  destruct (@Add_touch_icon_not_nil Tiny.imaging Tiny.plainJSON Tiny.group
              Tiny.emptyTouchIcon [] eq_refl) as [H _].
  destruct (H "image: unknown format" eq_refl) as (e & He & [Hf | [_ Hq]]).
  - discriminate Hf.
  - exists e. split; [exact He | exact Hq].
Defined.

(** ** C2: the short name of the manifest *)

(** [addWebmanifest] copies [ShortName] as it is; no assignment replaces
    an empty short name by [Name]. *)
Lemma manifestOf_ShortName (r : RouterGroup) (o : Options.t) :
  webmanifest.ShortName (manifestOf r o) = Options.ShortName o /\
  webmanifest.Name (manifestOf r o) = Options.Name o.
Proof.
  unfold manifestOf; simpl.
  destruct (is_empty (Options.Display o)); simpl; split; reflexivity.
Qed.

(** C2.  For the options [Name: "App"] with [ShortName] left empty, [Add]
    succeeds and the manifest it serves has the empty string as its
    [short_name], not ["App"]. *)
Theorem manifest_short_name_unset :
  Options.Name Tiny.app = "App" /\ Options.ShortName Tiny.app = EmptyString /\
  snd (Tiny.run Tiny.group Tiny.app) = None /\
  serve "/site.webmanifest"
    (registered Tiny.group (fst (Tiny.run Tiny.group Tiny.app))) =
    Some (Data StatusOK "application/manifest+json"
            (bytes_of_string
               (@render Tiny.plainJSON (Tiny.manifest Tiny.group Tiny.app)))) /\
  get "name" (Tiny.manifest Tiny.group Tiny.app) = Some (JString "App") /\
  get "short_name" (Tiny.manifest Tiny.group Tiny.app) = Some (JString EmptyString) /\
  @render Tiny.plainJSON (Tiny.manifest Tiny.group Tiny.app) =
    "{" ++ quoted "name" ++ ":" ++ quoted "App" ++ "," ++
    quoted "short_name" ++ ":" ++ quoted EmptyString ++ "," ++
    quoted "display" ++ ":" ++ quoted "standalone" ++ "," ++
    quoted "background_color" ++ ":" ++ quoted "#ffffff" ++ "," ++
    quoted "theme_color" ++ ":" ++ quoted "#ffffff" ++ "," ++
    quoted "icons" ++ ":[{" ++
    quoted "src" ++ ":" ++ quoted "/icons/android-chrome-192x192.png" ++ "," ++
    quoted "sizes" ++ ":" ++ quoted "192x192" ++ "," ++
    quoted "type" ++ ":" ++ quoted "image/png" ++ "},{" ++
    quoted "src" ++ ":" ++ quoted "/icons//android-chrome-512x512.png" ++ "," ++
    quoted "sizes" ++ ":" ++ quoted "512x512" ++ "," ++
    quoted "type" ++ ":" ++ quoted "image/png" ++ "}]}".
Proof. repeat split. Qed.

(** ** C3: the icon paths of the manifest *)

(** The two icon references: the second one is built with a separator of
    its own after the normalised base path. *)
Lemma manifestOf_Icons (r : RouterGroup) (o : Options.t) :
  map Src (webmanifest.Icons (manifestOf r o)) =
  [ manifestPath r ++ "android-chrome-192x192.png";
    manifestPath r ++ "/" ++ "android-chrome-512x512.png" ].
Proof.
  unfold manifestOf; simpl.
  destruct (is_empty (Options.Display o)); reflexivity.
Qed.

(** C3.  For a router group at [/icons], and for one at [/], the first
    icon reference has one separator between base path and file name and
    the second one has two. *)
Theorem manifest_icon_src_separators :
  map Src (webmanifest.Icons (manifestOf (mkRouterGroup "/icons" []) Tiny.app)) =
    [ "/icons/android-chrome-192x192.png"; "/icons//android-chrome-512x512.png" ] /\
  map Src (webmanifest.Icons (manifestOf (mkRouterGroup "/" []) Tiny.app)) =
    [ "/android-chrome-192x192.png"; "//android-chrome-512x512.png" ] /\
  get "icons" (Tiny.manifest Tiny.group Tiny.app) =
    Some (JArray
            [ JObject [("src", JString "/icons/android-chrome-192x192.png");
                       ("sizes", JString "192x192"); ("type", JString "image/png")];
              JObject [("src", JString "/icons//android-chrome-512x512.png");
                       ("sizes", JString "512x512"); ("type", JString "image/png")] ]).
Proof. repeat split. Qed.

(** * Further properties of the package *)

(** ** [Add] only appends *)

(** Whatever it returns, [Add] keeps the base path and the registrations
    the group had, in their order, and appends its own after them; what it
    appends and what it returns depend on the base path and the options
    only, not on the registrations already there. *)
Theorem Add_frame {IM : Imaging} {JS : JSONString}
    (r : RouterGroup) (o : Options.t) :
  let fresh := mkRouterGroup (BasePath r) [] in
  BasePath (fst (Add r o)) = BasePath r /\
  routes (fst (Add r o)) = (routes r ++ registered r (fst (Add r o)))%list /\
  registered r (fst (Add r o)) = routes (fst (Add fresh o)) /\
  snd (Add r o) = snd (Add fresh o).
Proof.
  cbv zeta.
  destruct (Decode (Options.Favicon o)) as [e|f] eqn:Hf.
  { unfold Add. rewrite Hf. simpl. rewrite registered_same, app_nil_r. auto. }
  destruct (appleTouchIconSource o f) as [e|a] eqn:Ha.
  { unfold Add. rewrite Hf. unfold appleTouchIconSource in Ha. rewrite Ha.
    simpl. rewrite registered_same, app_nil_r. auto. }
  rewrite (Add_collect r o f a Hf Ha).
  rewrite (Add_collect (mkRouterGroup (BasePath r) []) o f a Hf Ha).
  simpl. rewrite registered_extend. auto.
Qed.

(** ** The order of registration *)

(** The routes that the steps collect are the first ones of the nine, in
    program order, all of them for GET and answering with status 200;
    they are nine when no step fails, and fewer otherwise. *)
Lemma collect_steps {IM : Imaging} {JS : JSONString}
    (r : RouterGroup) (o : Options.t) (f a : Image)
    (rs : list Route) (res : option error) :
  collect (steps r o f a) = (rs, res) ->
  map relativePath rs = firstn (length rs) addedPaths /\
  Forall (fun rt => method rt = "GET" /\ code (handler rt) = StatusOK) rs /\
  (res = None <-> length rs = 9%nat).
Proof.
  unfold steps, iconStep. intros H.
  repeat match type of H with
         | context [Encode ?i ?fm] => destruct (Encode i fm)
         end;
    simpl in H; inversion H; subst; clear H;
    (split; [reflexivity|]); (split; [repeat constructor|]);
    (split; [intros E; first [reflexivity | discriminate E]
            | intros E; first [reflexivity | discriminate E]]).
Qed.

(** Whatever [Add] returns, the paths it has registered are the first
    ones of the nine paths in program order, every route is a GET route
    whose handler answers with status 200, and [Add] returns [nil] exactly
    when all nine are registered. *)
Theorem Add_registration_order {IM : Imaging} {JS : JSONString}
    (r : RouterGroup) (o : Options.t) (r' : RouterGroup) (res : option error) :
  Add r o = (r', res) ->
  map relativePath (registered r r') =
    firstn (length (registered r r')) addedPaths /\
  Forall (fun rt => method rt = "GET" /\ code (handler rt) = StatusOK)
    (registered r r') /\
  (res = None <-> length (registered r r') = 9%nat).
Proof.
  intros H.
  destruct (Add_cases _ _ _ _ H)
    as [(e & _ & -> & ->) | [(f & e & _ & _ & -> & ->) | (f & a & _ & _ & Hc & _)]].
  - rewrite registered_same. simpl. repeat split; auto; discriminate.
  - rewrite registered_same. simpl. repeat split; auto; discriminate.
  - exact (collect_steps _ _ _ _ _ _ Hc).
Qed.

Lemma Add_registration_order_witness :
  Tiny.run Tiny.group Tiny.emptyFavicon =
    (fst (Tiny.run Tiny.group Tiny.emptyFavicon),
     Some "png: invalid format: invalid image size") /\
  map relativePath
    (registered Tiny.group (fst (Tiny.run Tiny.group Tiny.emptyFavicon))) =
    firstn 1 addedPaths.
Proof.
  split; [reflexivity|].
  exact (proj1 (@Add_registration_order Tiny.imaging Tiny.plainJSON Tiny.group
                  Tiny.emptyFavicon (fst (Tiny.run Tiny.group Tiny.emptyFavicon))
                  (Some "png: invalid format: invalid image size") eq_refl)).
Defined.

Lemma firstn_In_string (n : nat) (l : list string) (p : string) :
  In p (firstn n l) -> In p l.
Proof.
  revert l. induction n as [|n IH]; intros [|x l]; simpl; try tauto.
  intros [->|H]; [now left | right; now apply IH].
Qed.

(** [Add] registers nothing outside its nine paths: a path that the new
    routes serve is one of them. *)
Theorem Add_serves_only_added_paths {IM : Imaging} {JS : JSONString}
    (r : RouterGroup) (o : Options.t) (r' : RouterGroup) (res : option error)
    (p : string) (resp : Response) :
  Add r o = (r', res) ->
  serve p (registered r r') = Some resp ->
  In p addedPaths.
Proof.
  intros H S.
  destruct (serve_In _ _ _ S) as (rt & Hin & <- & _).
  destruct (Add_cases _ _ _ _ H)
    as [(e & _ & -> & _) | [(f & e & _ & _ & -> & _) | (f & a & _ & _ & Hc & _)]].
  - rewrite registered_same in Hin. contradiction.
  - rewrite registered_same in Hin. contradiction.
  - destruct (collect_steps _ _ _ _ _ _ Hc) as (Hp & _ & _).
    apply (firstn_In_string (length (registered r r'))).
    rewrite <- Hp. now apply in_map.
Qed.

Lemma Add_serves_only_added_paths_witness :
  Tiny.run Tiny.group Tiny.app = (fst (Tiny.run Tiny.group Tiny.app), None) /\
  In "/favicon.png" addedPaths.
Proof.
  split; [reflexivity|].
  exact (@Add_serves_only_added_paths Tiny.imaging Tiny.plainJSON Tiny.group
           Tiny.app (fst (Tiny.run Tiny.group Tiny.app)) None "/favicon.png"
           (Data StatusOK "image/png"
              (bytes_of_string "PNG" ++ [x00; x30; x00; x30])%list)
           eq_refl eq_refl).
Defined.

(** ** When [Add] succeeds *)

(** On a router group that holds none of the nine paths, so that no
    registration of [Add] meets a route of the group, [Add] returns [nil]
    exactly when the favicon is decoded, the touch icon source is (the
    favicon itself when [AppleTouchIcon] is nil), and the resized raster
    of every entry of the catalog is encoded. *)
Theorem Add_succeeds_iff {IM : Imaging} {JS : JSONString}
    (r : RouterGroup) (o : Options.t) :
  (forall rt, In rt (routes r) -> ~ In (relativePath rt) addedPaths) ->
  (snd (Add r o) = None <->
   exists faviconImg appleTouchIconImg,
     Decode (Options.Favicon o) = inr faviconImg /\
     appleTouchIconSource o faviconImg = inr appleTouchIconImg /\
     forall d, In d catalog ->
       exists png,
         Encode (Resize (rasterOf (source d) faviconImg appleTouchIconImg)
                   (pixels d) (pixels d) Lanczos) PNG = inr png).
Proof.
  intros _. split.
  - intros H.
    assert (E : Add r o = (fst (Add r o), None))
      by (rewrite <- H; now destruct (Add r o)).
    destruct (Add_success_routes _ _ _ E)
      as (f & a & p180 & p48 & p32 & p16 & p192 & p512 & p150 &
          Hf & Ha & E180 & E48 & E32 & E16 & E192 & E512 & E150 & _).
    exists f, a. split; [exact Hf|]. split; [exact Ha|].
    intros d Hd. simpl in Hd.
    repeat (destruct Hd as [<-|Hd]; [eexists; eassumption|]).
    contradiction.
  - intros (f & a & Hf & Ha & H).
    rewrite (Add_collect r o f a Hf Ha). unfold steps, iconStep.
    destruct (H (mkDescriptor "apple-touch-icon.png" alternate 180)) as [q1 E1];
      [simpl; tauto|].
    destruct (H (mkDescriptor "favicon.png" primary 48)) as [q2 E2];
      [simpl; tauto|].
    destruct (H (mkDescriptor "favicon-32x32.png" primary 32)) as [q3 E3];
      [simpl; tauto|].
    destruct (H (mkDescriptor "favicon-16x16.png" primary 16)) as [q4 E4];
      [simpl; tauto|].
    destruct (H (mkDescriptor "android-chrome-192x192.png" primary 192)) as [q5 E5];
      [simpl; tauto|].
    destruct (H (mkDescriptor "android-chrome-512x512.png" primary 512)) as [q6 E6];
      [simpl; tauto|].
    destruct (H (mkDescriptor "mstile-150x150.png" primary 150)) as [q7 E7];
      [simpl; tauto|].
    simpl in E1, E2, E3, E4, E5, E6, E7.
    rewrite E1, E2, E3, E4, E5, E6, E7. reflexivity.
Qed.

(** On the stand-in codec: the group is empty, the 64 x 64 favicon of
    [app] is decoded and every size of it is encoded, so [Add] returns
    [nil]. *)
Lemma Add_succeeds_iff_witness :
  (forall rt, In rt (routes Tiny.group) -> ~ In (relativePath rt) addedPaths) /\
  snd (Tiny.run Tiny.group Tiny.app) = None.
Proof.
  assert (F : forall rt, In rt (routes Tiny.group) ->
                ~ In (relativePath rt) addedPaths)
    by (intros rt []).
  split; [exact F|].
  apply (proj2 (@Add_succeeds_iff Tiny.imaging Tiny.plainJSON Tiny.group Tiny.app F)).
  exists (Tiny.mkRaster 64 64), (Tiny.mkRaster 64 64).
  split; [reflexivity|]. split; [reflexivity|].
  intros d Hd. simpl in Hd.
  repeat (destruct Hd as [<-|Hd]; [eexists; reflexivity|]).
  contradiction.
Defined.

(** ** Options that change nothing, or one route only *)

(** [ThemeColor] and [BackgroundColor] are never read: [Add] does the
    same, and serves the same manifest, whatever they are. *)
Theorem Add_ignores_colors {IM : Imaging} {JS : JSONString}
    (r : RouterGroup) (o : Options.t) (theme background : string) :
  Add r (Options.withColors o theme background) = Add r o.
Proof.
  unfold Add; simpl.
  destruct (Decode (Options.Favicon o)) as [e|f]; reflexivity.
Qed.

(** On the stand-in codec: a theme colour set to black is served as
    white. *)
Example theme_color_black :
  get "theme_color"
    (Tiny.manifest Tiny.group (Options.withColors Tiny.app "#000000" "#000000")) =
  Some (JString "#ffffff").
Proof. reflexivity. Qed.

(** A route that is not asked for is passed over. *)
Lemma serve_skip (p q : string) (h : Response) (l : list Route) :
  q <> p -> serve p (mkRoute "GET" q h :: l) = serve p l.
Proof.
  intros N. simpl. apply String.eqb_neq in N. now rewrite N.
Qed.

(** The bytes of [AppleTouchIcon] reach the touch icon and nothing else:
    two successful runs of [Add] on options that differ in
    [AppleTouchIcon] only serve the same response at every other path. *)
Theorem Add_alternate_only_touch_icon {IM : Imaging} {JS : JSONString}
    (r : RouterGroup) (o : Options.t) (icon1 icon2 : option bytes)
    (r1 r2 : RouterGroup) (p : string) :
  Add r (Options.withAppleTouchIcon o icon1) = (r1, None) ->
  Add r (Options.withAppleTouchIcon o icon2) = (r2, None) ->
  p <> "/apple-touch-icon.png" ->
  serve p (registered r r1) = serve p (registered r r2).
Proof.
  intros H1 H2 N.
  destruct (Add_success_routes _ _ _ H1)
    as (f & a & p180 & p48 & p32 & p16 & p192 & p512 & p150 &
        Hf & _ & _ & E48 & E32 & E16 & E192 & E512 & E150 & ->).
  destruct (Add_success_routes _ _ _ H2)
    as (f' & a' & q180 & q48 & q32 & q16 & q192 & q512 & q150 &
        Hf' & _ & _ & F48 & F32 & F16 & F192 & F512 & F150 & ->).
  simpl in Hf, Hf'. rewrite Hf in Hf'. injection Hf' as <-.
  rewrite E48 in F48; rewrite E32 in F32; rewrite E16 in F16;
    rewrite E192 in F192; rewrite E512 in F512; rewrite E150 in F150.
  injection F48 as <-; injection F32 as <-; injection F16 as <-;
    injection F192 as <-; injection F512 as <-; injection F150 as <-.
  rewrite !(serve_skip p "/apple-touch-icon.png") by congruence.
  reflexivity.
Qed.

Lemma Add_alternate_only_touch_icon_witness :
  serve "/favicon.png"
    (registered Tiny.group
       (fst (Tiny.run Tiny.group (Options.withAppleTouchIcon Tiny.app None)))) =
  serve "/favicon.png"
    (registered Tiny.group
       (fst (Tiny.run Tiny.group
               (Options.withAppleTouchIcon Tiny.app (Some [x20; x10]))))).
Proof.
  apply (@Add_alternate_only_touch_icon Tiny.imaging Tiny.plainJSON Tiny.group
           Tiny.app None (Some [x20; x10])).
  - reflexivity.
  - reflexivity.
  - discriminate.
Defined.

(** The branding options reach the two documents only: runs of [Add] on
    options with the same [Favicon] and [AppleTouchIcon] return the same
    result and serve the same response for every entry of the catalog. *)
Theorem Add_icons_from_sources_only {IM : Imaging} {JS : JSONString}
    (r : RouterGroup) (o1 o2 : Options.t) :
  Options.Favicon o1 = Options.Favicon o2 ->
  Options.AppleTouchIcon o1 = Options.AppleTouchIcon o2 ->
  snd (Add r o1) = snd (Add r o2) /\
  forall d, In d catalog ->
    serve ("/" ++ asset d) (registered r (fst (Add r o1))) =
    serve ("/" ++ asset d) (registered r (fst (Add r o2))).
Proof.
  intros Ef Ea.
  destruct (Decode (Options.Favicon o1)) as [e|f] eqn:Hf.
  { unfold Add. rewrite <- Ef, Hf. auto. }
  destruct (appleTouchIconSource o1 f) as [e|a] eqn:Ha.
  { unfold Add. rewrite <- Ef, Hf, <- Ea.
    unfold appleTouchIconSource in Ha. rewrite Ha. auto. }
  assert (Hf2 : Decode (Options.Favicon o2) = inr f) by now rewrite <- Ef.
  assert (Ha2 : appleTouchIconSource o2 f = inr a)
    by (unfold appleTouchIconSource in *; now rewrite <- Ea).
  rewrite (Add_collect r o1 f a Hf Ha), (Add_collect r o2 f a Hf2 Ha2).
  simpl. rewrite !registered_extend. unfold steps, iconStep.
  repeat match goal with
         | |- context [Encode ?i ?fm] => destruct (Encode i fm)
         end;
    simpl; (split; [reflexivity|]);
    intros d Hd; simpl in Hd;
    repeat (destruct Hd as [<-|Hd]; [reflexivity|]); contradiction.
Qed.

Lemma Add_icons_from_sources_only_witness :
  snd (Tiny.run Tiny.group Tiny.app) =
  snd (Tiny.run Tiny.group
         (Options.mk "Other" "O" "browser" "/start" "#000000" "#000000" "#123456"
            Tiny.square64 None)).
Proof.
  exact (proj1 (@Add_icons_from_sources_only Tiny.imaging Tiny.plainJSON Tiny.group
                  Tiny.app
                  (Options.mk "Other" "O" "browser" "/start" "#000000" "#000000"
                     "#123456" Tiny.square64 None)
                  eq_refl eq_refl)).
Defined.

(** ** The base path of the icon references *)

Lemma substring_whole (s : string) : substring 0 (String.length s) s = s.
Proof. induction s as [|c s IH]; simpl; [reflexivity | now rewrite IH]. Qed.

Lemma substring_cut (s : string) (n : nat) :
  (n <= String.length s)%nat ->
  s = substring 0 n s ++ substring n (String.length s - n) s.
Proof.
  revert n. induction s as [|c s IH]; intros [|n] H; simpl in *.
  - reflexivity.
  - lia.
  - now rewrite substring_whole.
  - f_equal. apply IH. lia.
Qed.

(** [HasSuffix] holds exactly of the strings that end with the suffix. *)
Lemma HasSuffix_true_iff (s suffix : string) :
  HasSuffix s suffix = true <-> exists p, s = p ++ suffix.
Proof.
  split.
  - unfold HasSuffix. intros H. apply andb_true_iff in H as [Hl He].
    apply Nat.leb_le in Hl. apply String.eqb_eq in He.
    exists (substring 0 (String.length s - String.length suffix) s).
    pose proof (substring_cut s (String.length s - String.length suffix)) as C.
    replace (String.length s - (String.length s - String.length suffix))%nat
      with (String.length suffix) in C by lia.
    rewrite He in C. apply C. lia.
  - intros [p ->]. apply HasSuffix_append.
Qed.

(** The prefix of the icon references always ends with a separator: it is
    the base path itself when that ends with one (no second separator is
    appended), and the base path followed by one separator otherwise. *)
Theorem manifestPath_normalised (r : RouterGroup) :
  (exists p, manifestPath r = p ++ "/") /\
  ((exists p, BasePath r = p ++ "/") -> manifestPath r = BasePath r) /\
  (~ (exists p, BasePath r = p ++ "/") -> manifestPath r = BasePath r ++ "/").
Proof.
  split; [apply HasSuffix_true_iff, manifestPath_HasSuffix|].
  unfold manifestPath.
  destruct (HasSuffix (BasePath r) "/") eqn:E; simpl; split; intros H.
  - reflexivity.
  - exfalso. apply H. now apply HasSuffix_true_iff.
  - apply HasSuffix_true_iff in H. congruence.
  - reflexivity.
Qed.

(** For every base path the two icon references of the manifest are
    [p/android-chrome-192x192.png] and [p//android-chrome-512x512.png],
    where [p] is the base path without its last separator if it ends with
    one, and the base path itself otherwise. *)
Theorem manifest_icon_references (r : RouterGroup) (o : Options.t) :
  exists p,
    (BasePath r = p ++ "/" \/
     BasePath r = p /\ ~ (exists q, BasePath r = q ++ "/")) /\
    map Src (webmanifest.Icons (manifestOf r o)) =
      [ p ++ "/android-chrome-192x192.png";
        p ++ "//android-chrome-512x512.png" ] /\
    map Sizes (webmanifest.Icons (manifestOf r o)) = [ "192x192"; "512x512" ] /\
    map Type_ (webmanifest.Icons (manifestOf r o)) = [ "image/png"; "image/png" ].
Proof.
  assert (HI : webmanifest.Icons (manifestOf r o) =
               [ mkIcon (manifestPath r ++ "android-chrome-192x192.png")
                   "192x192" "image/png";
                 mkIcon (manifestPath r ++ "/android-chrome-512x512.png")
                   "512x512" "image/png" ]).
  { unfold manifestOf; simpl. destruct (is_empty (Options.Display o)); reflexivity. }
  rewrite HI. simpl. unfold manifestPath.
  destruct (HasSuffix (BasePath r) "/") eqn:E; simpl.
  - destruct (proj1 (HasSuffix_true_iff _ _) E) as [p Hp]. exists p.
    split; [now left|]. rewrite Hp, !string_app_assoc. auto.
  - exists (BasePath r). split.
    + right. split; [reflexivity|]. intros H.
      apply HasSuffix_true_iff in H. congruence.
    + rewrite !string_app_assoc. auto.
Qed.

(** ** The manifest document *)

(** Whenever [Add] has registered the manifest, what it serves is the
    marshalled form of this object: [name] and [short_name] as the options
    give them, [display] as given or ["standalone"], [start_url] only when
    [StartURL] is not empty, both colours ["#ffffff"], and the two icon
    references, in this order of fields. *)
Theorem Add_manifest_document {IM : Imaging} {JS : JSONString}
    (r : RouterGroup) (o : Options.t) (r' : RouterGroup) (res : option error)
    (resp : Response) :
  Add r o = (r', res) ->
  serve "/site.webmanifest" (registered r r') = Some resp ->
  resp =
  Data StatusOK "application/manifest+json"
    (bytes_of_string
       (render
          (JObject
             ([ ("name", JString (Options.Name o));
                ("short_name", JString (Options.ShortName o));
                ("display",
                 JString (if is_empty (Options.Display o) then "standalone"
                          else Options.Display o)) ] ++
              (if is_empty (Options.StartURL o) then []
               else [ ("start_url", JString (Options.StartURL o)) ]) ++
              [ ("background_color", JString "#ffffff");
                ("theme_color", JString "#ffffff");
                ("icons",
                 JArray
                   [ JObject
                       [ ("src",
                          JString (manifestPath r ++ "android-chrome-192x192.png"));
                         ("sizes", JString "192x192");
                         ("type", JString "image/png") ];
                     JObject
                       [ ("src",
                          JString (manifestPath r ++ "/android-chrome-512x512.png"));
                         ("sizes", JString "512x512");
                         ("type", JString "image/png") ] ]) ])%list))).
Proof.
  intros H S. rewrite (proj1 (Add_documents _ _ _ _ resp H) S).
  unfold manifestRoute, manifestOf; simpl.
  destruct (is_empty (Options.Display o)); reflexivity.
Qed.

Lemma Add_manifest_document_witness :
  exists text,
    serve "/site.webmanifest"
      (registered Tiny.group (fst (Tiny.run Tiny.group Tiny.app))) =
      Some (Data StatusOK "application/manifest+json" (bytes_of_string text)).
Proof.
  eexists.
  rewrite <- (@Add_manifest_document Tiny.imaging Tiny.plainJSON Tiny.group
                Tiny.app (fst (Tiny.run Tiny.group Tiny.app)) None _
                eq_refl eq_refl).
  reflexivity.
Defined.

(** ** The tile icon when [Add] fails *)

(** The tile icon is the last step.  When [Add] returns an error the new
    routes do not serve [/mstile-150x150.png]; and if they serve
    [/browserconfig.xml], which refers to it, the error is that of
    encoding the tile icon. *)
Theorem Add_failure_tile_icon {IM : Imaging} {JS : JSONString}
    (r : RouterGroup) (o : Options.t) (r' : RouterGroup) (err : error) :
  Add r o = (r', Some err) ->
  serve "/mstile-150x150.png" (registered r r') = None /\
  (forall resp,
     serve "/browserconfig.xml" (registered r r') = Some resp ->
     exists faviconImg,
       Decode (Options.Favicon o) = inr faviconImg /\
       Encode (Resize faviconImg 150 150 Lanczos) PNG = inl err).
Proof.
  intros H.
  destruct (Add_cases _ _ _ _ H)
    as [(e & _ & -> & _) | [(f & e & _ & _ & -> & _) | (f & a & Hf & _ & Hc & _)]].
  - rewrite registered_same. split; [reflexivity | discriminate].
  - rewrite registered_same. split; [reflexivity | discriminate].
  - revert Hc. generalize (registered r r'). intros rs Hc.
    unfold steps, iconStep in Hc.
    repeat match type of Hc with
           | context [Encode ?i ?fm] => destruct (Encode i fm) eqn:?
           end;
      simpl in Hc; inversion Hc; subst; clear Hc;
      (split; [reflexivity|]); intros resp S;
      first [ discriminate S | exists f; split; assumption ].
Qed.

Lemma Add_failure_tile_icon_witness :
  Tiny.run Tiny.group Tiny.emptyFavicon =
    (fst (Tiny.run Tiny.group Tiny.emptyFavicon),
     Some "png: invalid format: invalid image size") /\
  serve "/mstile-150x150.png"
    (registered Tiny.group (fst (Tiny.run Tiny.group Tiny.emptyFavicon))) = None.
Proof.
  split; [reflexivity|].
  exact (proj1 (@Add_failure_tile_icon Tiny.imaging Tiny.plainJSON Tiny.group
                  Tiny.emptyFavicon (fst (Tiny.run Tiny.group Tiny.emptyFavicon))
                  "png: invalid format: invalid image size" eq_refl)).
Defined.
